(** * Home-ownership scenario model: transfer tax, amortizer, simulators

    A shallow embedding of [streamlit_app.py] (functions [calculate_reet],
    [calculate_mortgage_payment], [calculate_mortgage_schedule],
    [simulate_stay_full] and [simulate_home_ownership]) and the properties
    stated about them.

    Numbers.  Python's [float] values are read as exact rationals in lowest
    terms ([Qc]): every arithmetic operation is the exact one, so rounding
    of binary64 and overflow to infinity are not part of this model.
    Integers that drive loops ([term_years], [years]) are [Z].  Two amounts
    are equal ([=]) exactly when they are the same number.

    Exceptions.  The exceptions the code can raise ([ZeroDivisionError]
    from [/] and [**], [IndexError] from [.values[0]] on an empty
    selection, [KeyError] from a column lookup on a frame built from an
    empty list) are values of [exn], threaded through a small error monad. *)

From Stdlib Require Import ZArith QArith Qround Qpower Qreduction Qcanon.
From Stdlib Require Import List Bool Lia Lqa.
From Stdlib Require Floats.PrimFloat Floats.FloatOps Floats.SpecFloat.
From Stdlib Require Numbers.Cyclic.Int63.Uint63.
Import ListNotations.

Local Open Scope Qc_scope.

(** A literal of the source, as a number of the model. *)
Notation "' q" := (Q2Qc q%Q) (at level 1, q at level 0, format "' q") : Qc_scope.

(** ** Exceptions and the error monad *)

Inductive exn : Type :=
| ZeroDivisionError
| IndexError
| KeyError
| OverflowError.

Inductive result (A : Type) : Type :=
| Ok (a : A)
| Raise (e : exn).

Arguments Ok {A} a.
Arguments Raise {A} e.

Definition bind {A B : Type} (r : result A) (k : A -> result B) : result B :=
  match r with
  | Ok a => k a
  | Raise e => Raise e
  end.

Notation "x <- c ;; k" := (bind c (fun x => k))
  (at level 61, c at next level, right associativity).


(** [returns r]: the call ended normally. *)
Definition returns {A : Type} (r : result A) : Prop := exists a, r = Ok a.

(** ** Python arithmetic on exact numbers *)

(** [x < y] and [x == y] as booleans. *)
Definition Qcltb (x y : Qc) : bool := negb (Qle_bool y x).
Definition Qceqb (x y : Qc) : bool := Qeq_bool x y.

(** [a / b]: true division, [ZeroDivisionError] on a zero divisor. *)
Definition py_div (a b : Qc) : result Qc :=
  if Qceqb b 0 then Raise ZeroDivisionError else Ok (a / b).

(** [b ** e] for an integer exponent: zero to a negative power raises
    [ZeroDivisionError]. *)
Definition py_pow (b : Qc) (e : Z) : result Qc :=
  if Qceqb b 0 && (e <? 0)%Z then Raise ZeroDivisionError
  else Ok (Q2Qc (Qpower b e)).

(** [min(a, b)]: the second argument only when it is strictly smaller. *)
Definition py_min (a b : Qc) : Qc := if Qcltb b a then b else a.

(** Round half to even, to an integer. *)
Definition round_half_even (q : Qc) : Z :=
  let f := Qfloor q in
  match Qcompare (q - inject_Z f)%Q (1 # 2)%Q with
  | Lt => f
  | Gt => (f + 1)%Z
  | Eq => if Z.even f then f else (f + 1)%Z
  end.

(** [round(q, 2)]: the nearest multiple of 1/100, ties to even. *)
Definition py_round2 (q : Qc) : Qc :=
  Q2Qc (inject_Z (round_half_even (q * '100))) / '100.

(** [range(a, b)]. *)
Definition py_range (a b : Z) : list Z :=
  map (fun i => (a + Z.of_nat i)%Z) (seq 0 (Z.to_nat (b - a))).

(** [sum] of a column. *)
Definition py_sum (l : list Qc) : Qc := fold_left Qcplus l 0.

(** ** Transfer tax: [calculate_reet] *)

(** An upper bound of a bracket: a number or [float('inf')]. *)
Inductive bound : Type :=
| Fin (limit : Qc)
| Inf.

Definition brackets : list (bound * Qc) :=
  [ (Fin '525000, '(11 # 1000));
    (Fin '1525000, '(128 # 10000));
    (Fin '3025000, '(275 # 10000));
    (Inf, '(30 # 1000)) ].

(** The [for limit, rate in brackets] loop with its [break]; the state is
    [(tax, prev_limit)].  [purchase_price > float('inf')] is false for every
    number, so the infinite bound always takes the [else] branch. *)
Fixpoint reet_loop (bs : list (bound * Qc)) (purchase_price tax prev_limit : Qc) : Qc :=
  match bs with
  | [] => tax
  | (Fin limit, rate) :: rest =>
      if Qcltb limit purchase_price
      then reet_loop rest purchase_price (tax + (limit - prev_limit) * rate) limit
      else tax + (purchase_price - prev_limit) * rate
  | (Inf, rate) :: _ => tax + (purchase_price - prev_limit) * rate
  end.

Definition calculate_reet (purchase_price : Qc) : Qc :=
  py_round2 (reet_loop brackets purchase_price 0 0).

(** ** Mortgage amortizer *)

Definition calculate_mortgage_payment (loan_amount annual_rate : Qc) (term_years : Z)
  : result Qc :=
  let monthly_rate := annual_rate / '12 in
  let n_payments := (term_years * 12)%Z in
  pw <- py_pow (1 + monthly_rate) (- n_payments) ;;
  py_div (loan_amount * monthly_rate) (1 - pw).

(** One dictionary appended to [schedule]. *)
Record Row : Type := mkRow {
  Month : Z;
  Interest : Qc;
  Principal : Qc;
  Remaining_Balance : Qc
}.

(** A data frame built from a list of dictionaries.  [pd.DataFrame([])] has
    no columns at all, so a column lookup on it raises [KeyError]; a frame
    whose rows were filtered away keeps its columns. *)
Record DataFrame : Type := mkFrame {
  has_columns : bool;
  rows : list Row
}.

Definition pd_DataFrame (l : list Row) : DataFrame :=
  mkFrame (match l with [] => false | _ => true end) l.

(** [df[name]]: a column. *)
Definition column {A : Type} (f : Row -> A) (df : DataFrame) : result (list A) :=
  if has_columns df then Ok (map f (rows df)) else Raise KeyError.

(** [df[mask]] for a boolean mask computed row by row. *)
Definition select (p : Row -> bool) (df : DataFrame) : DataFrame :=
  mkFrame (has_columns df) (filter p (rows df)).

(** [.values[0]]. *)
Definition values0 {A : Type} (l : list A) : result A :=
  match l with
  | [] => Raise IndexError
  | x :: _ => Ok x
  end.

(** The [for month in range(1, n_payments + 1)] loop; the state is [balance],
    the rows are produced in order. *)
Fixpoint schedule_loop (months : list Z) (monthly_rate monthly_payment balance : Qc)
  : list Row :=
  match months with
  | [] => []
  | month :: rest =>
      let interest_payment := balance * monthly_rate in
      let principal_payment := monthly_payment - interest_payment in
      let balance := balance - principal_payment in
      mkRow month interest_payment principal_payment balance
        :: schedule_loop rest monthly_rate monthly_payment balance
  end.

Definition calculate_mortgage_schedule (loan_amount annual_rate : Qc) (term_years : Z)
  : result DataFrame :=
  let monthly_rate := annual_rate / '12 in
  let n_payments := (term_years * 12)%Z in
  monthly_payment <- calculate_mortgage_payment loan_amount annual_rate term_years ;;
  Ok (pd_DataFrame
        (schedule_loop (py_range 1 (n_payments + 1)) monthly_rate monthly_payment
           loan_amount)).

(** ** Scenario simulators *)

(** [schedule[schedule['Month'] == m]['Remaining Balance'].values[0]]. *)
Definition balance_at (schedule : DataFrame) (m : Z) : result Qc :=
  _ <- column Month schedule ;;
  bal <- column Remaining_Balance (select (fun r => (Month r =? m)%Z) schedule) ;;
  values0 bal.

(** [schedule[schedule['Month'].between(lo, hi)]['Interest'].sum()]. *)
Definition interest_between (schedule : DataFrame) (lo hi : Z) : result Qc :=
  _ <- column Month schedule ;;
  let sched_year :=
    select (fun r => (lo <=? Month r)%Z && (Month r <=? hi)%Z) schedule in
  ints <- column Interest sched_year ;;
  Ok (py_sum ints).

(** The [for year in range(1, years + 1)] loop of [simulate_stay_full]; the
    state is [cash_flows]. *)
Fixpoint stay_loop (year_range : list Z) (schedule : DataFrame)
    (monthly_pmt annual_tax monthly_ins tax_rate : Qc) (cash_flows : list Qc)
  : result (list Qc) :=
  match year_range with
  | [] => Ok cash_flows
  | year :: rest =>
      interest <- interest_between schedule ((year - 1) * 12 + 1) (year * 12) ;;
      let mortgage_interest_deduction := interest * tax_rate in
      let annual_piti := (monthly_pmt + (annual_tax / '12) + monthly_ins) * '12 in
      let net_cash_flow := - annual_piti + mortgage_interest_deduction in
      stay_loop rest schedule monthly_pmt annual_tax monthly_ins tax_rate
        (cash_flows ++ [net_cash_flow])
  end.

Definition simulate_stay_full
    (home_value mortgage_balance rate : Qc) (term_remaining : Z)
    (annual_tax monthly_ins appreciation_rate tax_rate : Qc) (years : Z)
  : result (list Qc) :=
  monthly_pmt <- calculate_mortgage_payment mortgage_balance rate term_remaining ;;
  schedule <- calculate_mortgage_schedule mortgage_balance rate term_remaining ;;
  cash_flows <- stay_loop (py_range 1 (years + 1)) schedule monthly_pmt annual_tax
                  monthly_ins tax_rate [- '600000] ;;
  growth <- py_pow (1 + appreciation_rate) years ;;
  let appreciated_value := home_value * growth in
  remaining_balance <- balance_at schedule (years * 12) ;;
  let net_sale_proceeds :=
    appreciated_value - remaining_balance - calculate_reet appreciated_value in
  Ok (cash_flows ++ [net_sale_proceeds]).

(** The [for _ in range(years)] loop of [simulate_home_ownership]. *)
Fixpoint buy_loop (year_range : list Z) (monthly_pmt tax ins annual_tax_savings : Qc)
    (cash_flows : list Qc) : list Qc :=
  match year_range with
  | [] => cash_flows
  | _ :: rest =>
      let annual_piti := (monthly_pmt + tax + ins) * '12 in
      buy_loop rest monthly_pmt tax ins annual_tax_savings
        (cash_flows ++ [- annual_piti + annual_tax_savings])
  end.

Definition simulate_home_ownership
    (purchase_price equity existing_mortgage existing_rate : Qc) (existing_term : Z)
    (rate : Qc) (term_years : Z) (tax ins down_pct appreciation tax_rate : Qc)
    (years : Z) : result (list Qc) :=
  let down_payment := purchase_price * down_pct in
  let loan_amount := purchase_price - down_payment in
  monthly_pmt <- calculate_mortgage_payment loan_amount rate term_years ;;
  schedule <- calculate_mortgage_schedule loan_amount rate term_years ;;
  let reet := calculate_reet purchase_price in
  let closing_costs := purchase_price * '(15 # 1000) in
  let net_proceeds := equity in
  let cash_flows := [net_proceeds - down_payment - closing_costs - reet] in
  let deductible_interest := py_min '750000 loan_amount * rate in
  let annual_tax_savings := deductible_interest * tax_rate in
  let cash_flows :=
    buy_loop (py_range 0 years) monthly_pmt tax ins annual_tax_savings cash_flows in
  growth <- py_pow (1 + appreciation) years ;;
  let appreciated_value := purchase_price * growth in
  remaining_balance <- balance_at schedule (years * 12) ;;
  let net_sale_proceeds :=
    appreciated_value - remaining_balance - calculate_reet appreciated_value in
  Ok (cash_flows ++ [net_sale_proceeds]).


(** ** Vocabulary of the properties *)

(** The balance after [k] iterations of the body of the amortization loop,
    at monthly rate [r] and payment [P], from the balance [b]. *)
Fixpoint balance_after (r P : Qc) (k : nat) (b : Qc) : Qc :=
  match k with
  | O => b
  | S k' => balance_after r P k' (b - (P - b * r))
  end.




(** ** The application: the module-level run *)

Module App.

(** The values of the sidebar widgets.  The widgets themselves belong to a
    library; what the script reads from them is taken as given. *)
Record Inputs : Type := mkInputs {
  holding_years : Z;
  appreciation_rate : Qc;
  discount_rate : Qc;
  tax_rate : Qc;
  home_value : Qc;
  mortgage_balance : Qc;
  current_rate : Qc;
  current_term : Z;
  current_tax : Qc;
  current_ins : Qc;
  price_29 : Qc;
  price_35 : Qc;
  tax_29 : Qc;
  tax_35 : Qc;
  ins_29 : Qc;
  ins_35 : Qc;
  annual_rate : Qc;
  term_years : Z;
  down_pct : Qc
}.

(** The bounds the sliders enforce; the number inputs are not bounded. *)
Definition in_slider_range (i : Inputs) : Prop :=
  (5 <= holding_years i <= 30)%Z
  /\ 0 <= appreciation_rate i /\ appreciation_rate i <= '(8 # 100)
  /\ '(2 # 100) <= discount_rate i /\ discount_rate i <= '(8 # 100)
  /\ 0 <= tax_rate i /\ tax_rate i <= '(50 # 100)
  /\ '(1 # 10) <= down_pct i /\ down_pct i <= '(5 # 10).

(** The sliders at the given positions, every number input at its
    default. *)
Definition with_defaults (holding : Z) (appreciation discount marginal down : Qc)
  : Inputs :=
  mkInputs holding appreciation discount marginal
    '1000000 '400000 '(475 # 10000) 24 '8800 '800
    '2900000 '3500000 '1993 '2392 '1078 '1167
    '(65 # 1000) 30 down.

(** The three simulations of the [# Run model] block, in the order of the
    script: an exception of one of them ends the run. *)
Definition run_model (i : Inputs) : result (list Qc * list Qc * list Qc) :=
  cf_stay <- simulate_stay_full (home_value i) (mortgage_balance i) (current_rate i)
               (current_term i) (current_tax i) (current_ins i)
               (appreciation_rate i) (tax_rate i) (holding_years i) ;;
  cf_29 <- simulate_home_ownership (price_29 i) (home_value i - mortgage_balance i)
             (mortgage_balance i) (current_rate i) (current_term i) (annual_rate i)
             (term_years i) (tax_29 i) (ins_29 i) (down_pct i)
             (appreciation_rate i) (tax_rate i) (holding_years i) ;;
  cf_35 <- simulate_home_ownership (price_35 i) (home_value i - mortgage_balance i)
             (mortgage_balance i) (current_rate i) (current_term i) (annual_rate i)
             (term_years i) (tax_35 i) (ins_35 i) (down_pct i)
             (appreciation_rate i) (tax_rate i) (holding_years i) ;;
  Ok (cf_stay, cf_29, cf_35).

(** The columns of the chart's frame: [Year], [Stay], [2.9M], [3.5M]. *)
Definition chart_columns (cfs : list Qc * list Qc * list Qc)
  : list Z * list Qc * list Qc * list Qc :=
  let '(cf_stay, cf_29, cf_35) := cfs in
  (py_range 0 (Z.of_nat (length cf_stay)), cf_stay, cf_29, cf_35).

End App.

(** ** The program over the arithmetic of the machine

    The same five functions once more, now without fixing what a number is:
    the numbers and their operations are the fields of an [Arith], and the
    reduction of a column ([Series.sum] of pandas, whose order of additions
    is the library's) is a parameter of the simulators.  A statement proved
    for every [Arith] holds for the binary64 arithmetic of the interpreter
    with its rounding, its infinities and its [OverflowError]; [exact] and
    [binary64] below are two arithmetics to run it on.  Numeric arguments
    are the floats of the arithmetic, loop counts are [Z]. *)

Module Machine.

Declare Scope num_scope.

Record Arith : Type := mkArith {
  num : Type;
  (** a numeric literal of the source *)
  lit : Q -> num;
  add : num -> num -> num;
  sub : num -> num -> num;
  mul : num -> num -> num;
  opp : num -> num;
  (** [a / b] where it does not raise, that is for a divisor that is not
      zero: the divisions by the literal [12], and [py_div] below *)
  quot : num -> num -> num;
  (** [x == 0] *)
  is_zero : num -> bool;
  (** [x < y] *)
  ltb : num -> num -> bool;
  (** [b ** e] for an integer exponent, with the exceptions it raises *)
  pow : num -> Z -> result num;
  (** [round(x, 2)] *)
  round2 : num -> num
}.

Section Program.

Variable A : Arith.

Local Notation "' q" := (lit A q%Q) (at level 1, q at level 0, format "' q")
  : num_scope.
Local Infix "+" := (add A) : num_scope.
Local Infix "-" := (sub A) : num_scope.
Local Infix "*" := (mul A) : num_scope.
Local Infix "/" := (quot A) : num_scope.
Local Notation "- x" := (opp A x) : num_scope.
Local Open Scope num_scope.

(** [a / b]: [ZeroDivisionError] on a zero divisor. *)
Definition py_div (a b : (num A)) : result (num A) :=
  if is_zero A b then Raise ZeroDivisionError else Ok (quot A a b).

(** [min(a, b)]. *)
Definition py_min (a b : (num A)) : num A := if ltb A b a then b else a.

Inductive bound : Type :=
| Fin (limit : (num A))
| Inf.

Definition brackets : list (bound * (num A)) :=
  [ (Fin '525000, '(11 # 1000));
    (Fin '1525000, '(128 # 10000));
    (Fin '3025000, '(275 # 10000));
    (Inf, '(30 # 1000)) ].

Fixpoint reet_loop (bs : list (bound * (num A)))
    (purchase_price tax prev_limit : (num A)) : num A :=
  match bs with
  | [] => tax
  | (Fin limit, rate) :: rest =>
      if ltb A limit purchase_price
      then reet_loop rest purchase_price (tax + (limit - prev_limit) * rate) limit
      else tax + (purchase_price - prev_limit) * rate
  | (Inf, rate) :: _ => tax + (purchase_price - prev_limit) * rate
  end.

Definition calculate_reet (purchase_price : (num A)) : num A :=
  round2 A (reet_loop brackets purchase_price '0 '0).

Definition calculate_mortgage_payment (loan_amount annual_rate : (num A)) (term_years : Z)
  : result (num A) :=
  let monthly_rate := annual_rate / '12 in
  let n_payments := (term_years * 12)%Z in
  pw <- pow A ('1 + monthly_rate) (- n_payments)%Z ;;
  py_div (loan_amount * monthly_rate) ('1 - pw).

Record Row : Type := mkRow {
  Month : Z;
  Interest : (num A);
  Principal : (num A);
  Remaining_Balance : (num A)
}.

Record DataFrame : Type := mkFrame {
  has_columns : bool;
  rows : list Row
}.

Definition pd_DataFrame (l : list Row) : DataFrame :=
  mkFrame (match l with [] => false | _ => true end) l.

Definition column {B : Type} (f : Row -> B) (df : DataFrame) : result (list B) :=
  if has_columns df then Ok (map f (rows df)) else Raise KeyError.

Definition select (p : Row -> bool) (df : DataFrame) : DataFrame :=
  mkFrame (has_columns df) (filter p (rows df)).

Fixpoint schedule_loop (months : list Z) (monthly_rate monthly_payment balance : (num A))
  : list Row :=
  match months with
  | [] => []
  | month :: rest =>
      let interest_payment := balance * monthly_rate in
      let principal_payment := monthly_payment - interest_payment in
      let balance := balance - principal_payment in
      mkRow month interest_payment principal_payment balance
        :: schedule_loop rest monthly_rate monthly_payment balance
  end.

Definition calculate_mortgage_schedule (loan_amount annual_rate : (num A))
    (term_years : Z)
  : result DataFrame :=
  let monthly_rate := annual_rate / '12 in
  let n_payments := (term_years * 12)%Z in
  monthly_payment <- calculate_mortgage_payment loan_amount annual_rate term_years ;;
  Ok (pd_DataFrame
        (schedule_loop (py_range 1 (n_payments + 1)) monthly_rate monthly_payment
           loan_amount)).

Definition balance_at (schedule : DataFrame) (m : Z) : result (num A) :=
  _ <- column Month schedule ;;
  bal <- column Remaining_Balance (select (fun r => (Month r =? m)%Z) schedule) ;;
  values0 bal.

(** The reduction [Series.sum] of the data-frame library. *)
Variable sum : list (num A) -> num A.

Definition interest_between (schedule : DataFrame) (lo hi : Z) : result (num A) :=
  _ <- column Month schedule ;;
  let sched_year :=
    select (fun r => (lo <=? Month r)%Z && (Month r <=? hi)%Z) schedule in
  ints <- column Interest sched_year ;;
  Ok (sum ints).

Fixpoint stay_loop (year_range : list Z) (schedule : DataFrame)
    (monthly_pmt annual_tax monthly_ins tax_rate : (num A)) (cash_flows : list (num A))
  : result (list (num A)) :=
  match year_range with
  | [] => Ok cash_flows
  | year :: rest =>
      interest <- interest_between schedule ((year - 1) * 12 + 1) (year * 12) ;;
      let mortgage_interest_deduction := interest * tax_rate in
      let annual_piti := (monthly_pmt + (annual_tax / '12) + monthly_ins) * '12 in
      let net_cash_flow := - annual_piti + mortgage_interest_deduction in
      stay_loop rest schedule monthly_pmt annual_tax monthly_ins tax_rate
        (cash_flows ++ [net_cash_flow])
  end.

Definition simulate_stay_full
    (home_value mortgage_balance rate : (num A)) (term_remaining : Z)
    (annual_tax monthly_ins appreciation_rate tax_rate : (num A)) (years : Z)
  : result (list (num A)) :=
  monthly_pmt <- calculate_mortgage_payment mortgage_balance rate term_remaining ;;
  schedule <- calculate_mortgage_schedule mortgage_balance rate term_remaining ;;
  cash_flows <- stay_loop (py_range 1 (years + 1)) schedule monthly_pmt annual_tax
                  monthly_ins tax_rate ['(-600000)] ;;
  growth <- pow A ('1 + appreciation_rate) years ;;
  let appreciated_value := home_value * growth in
  remaining_balance <- balance_at schedule (years * 12) ;;
  let net_sale_proceeds :=
    appreciated_value - remaining_balance - calculate_reet appreciated_value in
  Ok (cash_flows ++ [net_sale_proceeds]).

Fixpoint buy_loop (year_range : list Z) (monthly_pmt tax ins annual_tax_savings : (num A))
    (cash_flows : list (num A)) : list (num A) :=
  match year_range with
  | [] => cash_flows
  | _ :: rest =>
      let annual_piti := (monthly_pmt + tax + ins) * '12 in
      buy_loop rest monthly_pmt tax ins annual_tax_savings
        (cash_flows ++ [- annual_piti + annual_tax_savings])
  end.

Definition simulate_home_ownership
    (purchase_price equity existing_mortgage existing_rate : (num A)) (existing_term : Z)
    (rate : (num A)) (term_years : Z) (tax ins down_pct appreciation tax_rate : (num A))
    (years : Z) : result (list (num A)) :=
  let down_payment := purchase_price * down_pct in
  let loan_amount := purchase_price - down_payment in
  monthly_pmt <- calculate_mortgage_payment loan_amount rate term_years ;;
  schedule <- calculate_mortgage_schedule loan_amount rate term_years ;;
  let reet := calculate_reet purchase_price in
  let closing_costs := purchase_price * '(15 # 1000) in
  let net_proceeds := equity in
  let cash_flows := [net_proceeds - down_payment - closing_costs - reet] in
  let deductible_interest := py_min '750000 loan_amount * rate in
  let annual_tax_savings := deductible_interest * tax_rate in
  let cash_flows :=
    buy_loop (py_range 0 years) monthly_pmt tax ins annual_tax_savings cash_flows in
  growth <- pow A ('1 + appreciation) years ;;
  let appreciated_value := purchase_price * growth in
  remaining_balance <- balance_at schedule (years * 12) ;;
  let net_sale_proceeds :=
    appreciated_value - remaining_balance - calculate_reet appreciated_value in
  Ok (cash_flows ++ [net_sale_proceeds]).

End Program.

End Machine.


(** ** Two arithmetics *)

(** Exact arithmetic: the rationals of the first part of this file. *)
Definition exact : Machine.Arith :=
  Machine.mkArith Qc Q2Qc Qcplus Qcminus Qcmult Qcopp Qcdiv
    (fun x => Qceqb x 0) Qcltb py_pow py_round2.

(** Binary64, the [float] of the interpreter, on the primitive floats. *)
Module Binary64.

(** The value of a finite float, in lowest terms. *)
Definition value (x : PrimFloat.float) : option Q :=
  match FloatOps.Prim2SF x with
  | SpecFloat.S754_zero _ => Some 0%Q
  | SpecFloat.S754_finite s m e =>
      Some (Qred ((if s then - (1) else 1) * inject_Z (Zpos m) * Qpower 2 e))
  | SpecFloat.S754_infinity _ | SpecFloat.S754_nan => None
  end.

(** [n / d] rounded half to even, to an integer, for [d > 0]. *)
Definition div_half_even (n d : Z) : Z :=
  let q := (n / d)%Z in
  let r := (n mod d)%Z in
  match (2 * r ?= d)%Z with
  | Lt => q
  | Gt => (q + 1)%Z
  | Eq => if Z.even q then q else (q + 1)%Z
  end.

(** The float nearest to a positive rational [n / d], ties to even;
    [infinity] when that is beyond the largest float. *)
Definition nearest_pos (n d : positive) : PrimFloat.float :=
  let e0 := (Z.log2 (Zpos n) - Z.log2 (Zpos d))%Z in
  (* the exponent [e] with [2^e <= n/d < 2^(e+1)] *)
  let e := if (if (0 <=? e0)%Z then (Zpos d * 2 ^ e0 <=? Zpos n)%Z
              else (Zpos d <=? Zpos n * 2 ^ (- e0))%Z)
           then e0 else (e0 - 1)%Z in
  (* the unit in the last place, not below that of the subnormals *)
  let k := Z.max (e - 52) (-1074) in
  let m := if (0 <=? k)%Z then div_half_even (Zpos n) (Zpos d * 2 ^ k)
           else div_half_even (Zpos n * 2 ^ (- k)) (Zpos d) in
  if (2 ^ 1024 <=? m * 2 ^ (Z.max k 0))%Z && (0 <=? k)%Z then PrimFloat.infinity
  else FloatOps.Z.ldexp (PrimFloat.of_uint63 (Uint63.of_Z m)) k.

(** The float nearest to a rational. *)
Definition nearest (q : Q) : PrimFloat.float :=
  match Qnum q with
  | Z0 => PrimFloat.zero
  | Zpos n => nearest_pos n (Qden q)
  | Zneg n => PrimFloat.opp (nearest_pos n (Qden q))
  end.

(** The float of an integer operand: [OverflowError] for an integer beyond
    the floats. *)
Definition of_int (n : Z) : result PrimFloat.float :=
  let w := nearest (inject_Z n) in
  if PrimFloat.is_infinity w then Raise OverflowError else Ok w.

(** The integer that the float of an integer is. *)
Definition to_int (w : PrimFloat.float) : Z :=
  match value w with
  | Some q => Qfloor q
  | None => 0%Z
  end.

(** [x ** n] of the interpreter for a float [x] and an integer [n]: the
    exponent becomes a float first.  The special cases are those of
    [float_pow]; for a finite base other than 0 and 1 the interpreter calls
    the [pow] of the C library, read here as the float nearest to the exact
    power, and reports its overflow as [OverflowError]; an underflow is not
    an error.  (A C library may miss the nearest float by one unit in the
    last place where the power is not a float itself.) *)
Definition pow (x : PrimFloat.float) (n : Z) : result PrimFloat.float :=
  w <- of_int n ;;
  let e := to_int w in
  if (e =? 0)%Z then Ok PrimFloat.one
  else if PrimFloat.is_nan x then Ok x
  else if PrimFloat.is_infinity x then
    Ok (if (0 <? e)%Z then (if Z.odd e then x else PrimFloat.abs x)
        else (if Z.odd e && PrimFloat.get_sign x then PrimFloat.neg_zero
              else PrimFloat.zero))
  else if PrimFloat.is_zero x then
    if (e <? 0)%Z then Raise ZeroDivisionError
    else Ok (if Z.odd e then x else PrimFloat.zero)
  else
    let negate := PrimFloat.get_sign x && Z.odd e in
    let a := PrimFloat.abs x in
    if PrimFloat.eqb a PrimFloat.one
    then Ok (if negate then PrimFloat.opp PrimFloat.one else PrimFloat.one)
    else
      match value a with
      | Some q =>
          let p := nearest (Qpower q e) in
          if PrimFloat.is_infinity p then Raise OverflowError
          else Ok (if negate then PrimFloat.opp p else p)
      | None => Ok PrimFloat.nan
      end.

(** [round(x, 2)] of the interpreter: the decimal with two places nearest to
    the value of [x], ties to even, and then the float nearest to it. *)
Definition round2 (x : PrimFloat.float) : PrimFloat.float :=
  match value x with
  | None => x
  | Some q =>
      let cents := div_half_even (Qnum (q * 100)) (Zpos (Qden (q * 100))) in
      if (cents =? 0)%Z
      then (if PrimFloat.get_sign x then PrimFloat.neg_zero else PrimFloat.zero)
      else nearest (inject_Z cents / 100)
  end.

Definition arith : Machine.Arith :=
  Machine.mkArith PrimFloat.float nearest PrimFloat.add PrimFloat.sub PrimFloat.mul
    PrimFloat.opp PrimFloat.div PrimFloat.is_zero PrimFloat.ltb pow round2.

(** A left-to-right sum, one of the orders a reduction may add in. *)
Definition sum (l : list PrimFloat.float) : PrimFloat.float :=
  fold_left PrimFloat.add l PrimFloat.zero.

End Binary64.

(** * Properties *)

(** ** Numbers: from [Qc] to [Q] and back *)

Lemma this_Q2Qc (q : Q) : (this (Q2Qc q) == q)%Q.
Proof. apply Qred_correct. Qed.

Lemma this_plus (x y : Qc) : (this (x + y) == this x + this y)%Q.
Proof. apply Qred_correct. Qed.

Lemma this_mult (x y : Qc) : (this (x * y) == this x * this y)%Q.
Proof. apply Qred_correct. Qed.

Lemma this_opp (x : Qc) : (this (- x) == - this x)%Q.
Proof. apply Qred_correct. Qed.

Lemma this_minus (x y : Qc) : (this (x - y) == this x - this y)%Q.
Proof. unfold Qcminus. rewrite this_plus, this_opp. reflexivity. Qed.

Lemma this_inv (x : Qc) : (this (/ x) == / this x)%Q.
Proof. apply Qred_correct. Qed.

Lemma this_div (x y : Qc) : (this (x / y) == this x / this y)%Q.
Proof. unfold Qcdiv. rewrite this_mult, this_inv. reflexivity. Qed.

(** Push [this] through the arithmetic of a goal, leaving a goal over [Q]. *)
Ltac to_Q :=
  unfold Qclt, Qcle;
  repeat (rewrite ?this_minus, ?this_plus, ?this_mult, ?this_opp, ?this_div,
            ?this_inv, ?this_Q2Qc).

Ltac to_Q_in H :=
  unfold Qclt, Qcle in H;
  repeat (rewrite ?this_minus, ?this_plus, ?this_mult, ?this_opp, ?this_div,
            ?this_inv, ?this_Q2Qc in H).

Lemma Qceqb_eq (x y : Qc) : Qceqb x y = true <-> x = y.
Proof.
  unfold Qceqb. rewrite Qeq_bool_iff. split.
  - apply Qc_is_canon.
  - intros ->. reflexivity.
Qed.

Lemma Qceqb_neq (x y : Qc) : Qceqb x y = false <-> x <> y.
Proof.
  rewrite <- Qceqb_eq. destruct (Qceqb x y); split; congruence.
Qed.

Lemma Qcltb_lt (x y : Qc) : Qcltb x y = true <-> x < y.
Proof.
  unfold Qcltb, Qclt. rewrite negb_true_iff, <- not_true_iff_false, Qle_bool_iff.
  split; [apply Qnot_le_lt | apply Qlt_not_le].
Qed.

Lemma Qcltb_ge (x y : Qc) : Qcltb x y = false <-> y <= x.
Proof.
  unfold Qcltb, Qcle. rewrite negb_false_iff, Qle_bool_iff. reflexivity.
Qed.

(** ** Rounding *)

Lemma round_half_even_floor (q : Qc) :
  (Qfloor q <= round_half_even q <= Qfloor q + 1)%Z.
Proof.
  unfold round_half_even.
  destruct (Qcompare _ _); [destruct (Z.even _) | |]; lia.
Qed.

(** Rounding to an integer is monotone. *)
Lemma round_half_even_mono (x y : Qc) :
  x <= y -> (round_half_even x <= round_half_even y)%Z.
Proof.
  intros Hxy. unfold Qcle in Hxy.
  pose proof (Qfloor_resp_le _ _ Hxy) as Hf.
  destruct (Z.eq_dec (Qfloor x) (Qfloor y)) as [E | N].
  - unfold round_half_even. rewrite <- E.
    destruct (Qcompare (x - inject_Z (Qfloor x))%Q (1 # 2)%Q) eqn:Cx;
      destruct (Qcompare (y - inject_Z (Qfloor x))%Q (1 # 2)%Q) eqn:Cy;
      try (destruct (Z.even (Qfloor x))); try lia; exfalso;
      repeat match goal with
        | H : Qcompare _ _ = Eq |- _ => apply Qeq_alt in H
        | H : Qcompare _ _ = Lt |- _ => apply Qlt_alt in H
        | H : Qcompare _ _ = Gt |- _ => apply Qgt_alt in H
        end; lra.
  - pose proof (round_half_even_floor x). pose proof (round_half_even_floor y). lia.
Qed.

Lemma py_round2_mono (x y : Qc) : x <= y -> py_round2 x <= py_round2 y.
Proof.
  intros Hxy. unfold py_round2.
  assert (H100 : x * '100 <= y * '100).
  { apply Qcmult_le_compat_r; [assumption | discriminate]. }
  apply round_half_even_mono in H100.
  to_Q. apply Qmult_le_compat_r; [ | discriminate].
  rewrite <- Zle_Qle. assumption.
Qed.

(** ** Transfer tax *)

(** Decide every comparison of the bracket walk and read it as an order
    fact over [Q]. *)
Ltac split_brackets :=
  repeat match goal with
    | |- context [Qcltb ?a ?b] =>
        let E := fresh "E" in
        destruct (Qcltb a b) eqn:E;
        [apply Qcltb_lt in E | apply Qcltb_ge in E]; to_Q_in E
    end.

(** The tax before rounding grows with the price, within a bracket and
    from one bracket to the next. *)
Lemma reet_loop_mono (p1 p2 : Qc) :
  p1 <= p2 -> reet_loop brackets p1 0 0 <= reet_loop brackets p2 0 0.
Proof.
  intros H. to_Q_in H. unfold brackets. cbn [reet_loop].
  split_brackets; to_Q; lra.
Qed.


(** ** Ranges and sums *)

Lemma py_range_length (a b : Z) : length (py_range a b) = Z.to_nat (b - a).
Proof. unfold py_range. rewrite length_map, length_seq. reflexivity. Qed.

Lemma py_range_In (a b m : Z) : In m (py_range a b) <-> (a <= m < b)%Z.
Proof.
  unfold py_range. rewrite in_map_iff. split.
  - intros (i & <- & Hi). apply in_seq in Hi. lia.
  - intros H. exists (Z.to_nat (m - a)). split; [lia | apply in_seq; lia].
Qed.

Lemma py_range_nth (a b : Z) (i : nat) :
  (i < Z.to_nat (b - a))%nat -> nth_error (py_range a b) i = Some (a + Z.of_nat i)%Z.
Proof.
  intros Hi. unfold py_range.
  rewrite nth_error_map, nth_error_nth' with (d := 0%nat) by (rewrite length_seq; lia).
  rewrite seq_nth by lia. reflexivity.
Qed.

Lemma py_range_empty (a b : Z) : (b <= a)%Z -> py_range a b = [].
Proof.
  intros H. unfold py_range. replace (Z.to_nat (b - a)) with 0%nat by lia. reflexivity.
Qed.



(** ** The amortization loop *)

Section Schedule.

(** The monthly rate and the payment are fixed during the loop. *)
Variables (r P : Qc).



Lemma schedule_loop_length (ms : list Z) (b : Qc) :
  length (schedule_loop ms r P b) = length ms.
Proof.
  revert b. induction ms as [| m ms IH]; intros b; simpl; [| rewrite IH]; reflexivity.
Qed.

Lemma schedule_loop_Month (ms : list Z) (b : Qc) :
  map Month (schedule_loop ms r P b) = ms.
Proof.
  revert b. induction ms as [| m ms IH]; intros b; simpl; [| rewrite IH]; reflexivity.
Qed.





(** The rows selected by [schedule['Month'] == m]. *)
Lemma schedule_loop_select_none (ms : list Z) (b : Qc) (m : Z) :
  ~ In m ms -> filter (fun row => (Month row =? m)%Z) (schedule_loop ms r P b) = [].
Proof.
  revert b. induction ms as [| m0 ms IH]; intros b Hm; simpl.
  - reflexivity.
  - destruct (Z.eqb_spec m0 m) as [-> | _].
    + exfalso. apply Hm. left. reflexivity.
    + apply IH. intros Hin. apply Hm. right. assumption.
Qed.

Lemma schedule_loop_select_some (ms : list Z) (b : Qc) (m : Z) :
  In m ms ->
  exists row rest,
    filter (fun row => (Month row =? m)%Z) (schedule_loop ms r P b) = row :: rest.
Proof.
  revert b. induction ms as [| m0 ms IH]; intros b Hm; simpl.
  - destruct Hm.
  - destruct (Z.eqb_spec m0 m) as [-> | Hne].
    + eexists _, _. reflexivity.
    + destruct Hm as [-> | Hin]; [congruence | apply IH; assumption].
Qed.

End Schedule.

(** ** The fixed payment *)

Lemma this_Qcpower (q : Qc) (k : nat) : (this (q ^ k) == Qpower q (Z.of_nat k))%Q.
Proof.
  induction k as [| k IH].
  - reflexivity.
  - cbn [Qcpower]. rewrite this_mult, IH, Nat2Z.inj_succ, <- Z.add_1_l.
    rewrite Qpower_plus' by lia. reflexivity.
Qed.

(** The discount factor [(1 + r) ** -n] of a loan with [n > 0] payments at a
    positive rate. *)
Lemma discount_factor (q : Qc) (n : Z) :
  1 < q -> (0 < n)%Z ->
  let pw := Q2Qc (Qpower q (- n)) in
  0 < pw /\ pw < 1 /\ pw * q ^ Z.to_nat n = 1.
Proof.
  intros Hq Hn pw. to_Q_in Hq.
  assert (Hpos : (0 < Qpower q n)%Q) by (apply Qpower_0_lt; lra).
  assert (Hgt : (1 < Qpower q n)%Q) by (apply Qpower_1_lt; assumption).
  assert (Hinv : (this pw == / Qpower q n)%Q).
  { unfold pw. rewrite this_Q2Qc. apply Qpower_opp. }
  assert (Hmul : (this pw * Qpower q n == 1)%Q).
  { rewrite Hinv. field. lra. }
  repeat split.
  - to_Q. rewrite Hinv. apply Qinv_lt_0_compat. assumption.
  - to_Q. nra.
  - apply Qc_is_canon. to_Q. rewrite this_Qcpower, Z2Nat.id by lia. assumption.
Qed.


Lemma monthly_rate_pos (annual_rate : Qc) : 0 < annual_rate -> 0 < annual_rate / '12.
Proof.
  intros H. to_Q_in H. to_Q. apply Qlt_shift_div_l; lra.
Qed.

Lemma py_pow_nonzero (b : Qc) (e : Z) : b <> 0 -> py_pow b e = Ok (Q2Qc (Qpower b e)).
Proof.
  intros Hb. unfold py_pow. apply Qceqb_neq in Hb. rewrite Hb. reflexivity.
Qed.

Lemma py_pow_nonneg (b : Qc) (e : Z) :
  (0 <= e)%Z -> py_pow b e = Ok (Q2Qc (Qpower b e)).
Proof.
  intros He. unfold py_pow. replace (e <? 0)%Z with false by lia.
  rewrite andb_false_r. reflexivity.
Qed.

Lemma py_div_nonzero (a b : Qc) : b <> 0 -> py_div a b = Ok (a / b).
Proof.
  intros Hb. unfold py_div. apply Qceqb_neq in Hb. rewrite Hb. reflexivity.
Qed.

Lemma above_one_nonzero (q : Qc) : 1 < q -> q <> 0.
Proof.
  intros Hq ->. to_Q_in Hq. lra.
Qed.

Lemma one_plus_pos (r : Qc) : 0 < r -> 1 < 1 + r.
Proof.
  intros H. to_Q_in H. to_Q. lra.
Qed.

(** A loan at a positive rate with at least one payment has a payment [P],
    and [P] is the annuity: [P * (1 - (1+r)^-n) = loan * r]. *)
Lemma payment_annuity (loan_amount annual_rate : Qc) (term_years : Z) :
  0 < annual_rate -> (1 <= term_years)%Z ->
  let r := annual_rate / '12 in
  let n := Z.to_nat (term_years * 12) in
  exists P,
    calculate_mortgage_payment loan_amount annual_rate term_years = Ok P /\
    (P - loan_amount * r) * (1 + r) ^ n = P /\
    (0 < loan_amount -> 0 < P - loan_amount * r).
Proof.
  intros Hrate Hterm r n.
  pose proof (monthly_rate_pos _ Hrate) as Hr. fold r in Hr.
  pose proof (one_plus_pos _ Hr) as Hq.
  destruct (discount_factor (1 + r) (term_years * 12) Hq ltac:(lia))
    as (Hpw0 & Hpw1 & Hpw).
  set (pw := Q2Qc (Qpower (1 + r)%Qc (- (term_years * 12)))) in *.
  assert (Hden : 1 - pw <> 0).
  { intros E. to_Q_in Hpw1.
    assert (E' : (this (1 - pw) == 0)%Q) by (rewrite E; reflexivity).
    to_Q_in E'. lra. }
  exists (loan_amount * r / (1 - pw)).
  split; [| split].
  - unfold calculate_mortgage_payment. fold r.
    rewrite py_pow_nonzero by (apply above_one_nonzero; assumption).
    cbn [bind]. fold pw. apply py_div_nonzero. assumption.
  - fold n in Hpw.
    transitivity (loan_amount * r / (1 - pw) * (pw * (1 + r) ^ n));
      [field; assumption | rewrite Hpw; ring].
  - intros Hloan.
    assert (E : loan_amount * r / (1 - pw) - loan_amount * r
                = loan_amount * r * pw / (1 - pw)) by (field; assumption).
    rewrite E. to_Q_in Hloan. to_Q_in Hr. to_Q_in Hpw0. to_Q_in Hpw1. to_Q.
    apply Qlt_shift_div_l; [lra |].
    assert (Hlr : (0 < this loan_amount * this r)%Q) by nra. nra.
Qed.



(** ** Lookups in the schedule *)

Lemma pd_DataFrame_columns (l : list Row) :
  has_columns (pd_DataFrame l) = match l with [] => false | _ => true end.
Proof. reflexivity. Qed.

Lemma schedule_loop_nil (ms : list Z) (r P b : Qc) :
  schedule_loop ms r P b = [] <-> ms = [].
Proof.
  destruct ms; simpl; split; intros H; try reflexivity; discriminate.
Qed.

(** The first row selected by [Month == m] is the row of month [m]. *)
Lemma schedule_loop_select_first (r P : Qc) (ms : list Z) (b : Qc) (i : nat) (m : Z) :
  nth_error ms i = Some m -> ~ In m (firstn i ms) ->
  values0 (map Remaining_Balance
             (filter (fun row => (Month row =? m)%Z) (schedule_loop ms r P b)))
  = Ok (balance_after r P (S i) b).
Proof.
  revert b i. induction ms as [| m0 ms IH]; intros b i Hi Hfresh.
  - destruct i; discriminate.
  - destruct i as [| i]; cbn [nth_error firstn] in Hi, Hfresh.
    + injection Hi as ->. cbn [schedule_loop filter Month].
      rewrite Z.eqb_refl. reflexivity.
    + cbn [schedule_loop filter Month].
      destruct (Z.eqb_spec m0 m) as [-> | _].
      * exfalso. apply Hfresh. left. reflexivity.
      * rewrite (IH _ i Hi); [reflexivity |].
        intros Hin. apply Hfresh. right. assumption.
Qed.

Lemma py_range_firstn_fresh (a b : Z) (i : nat) :
  ~ In (a + Z.of_nat i)%Z (firstn i (py_range a b)).
Proof.
  intros Hin. apply In_nth_error in Hin as (j & Hj).
  assert (Hlen : (j < length (firstn i (py_range a b)))%nat).
  { apply nth_error_Some. congruence. }
  rewrite length_firstn, py_range_length in Hlen.
  rewrite nth_error_firstn in Hj.
  replace (j <? i)%nat with true in Hj by (symmetry; apply Nat.ltb_lt; lia).
  rewrite py_range_nth in Hj by lia.
  injection Hj as Hj. lia.
Qed.

(** The schedule of a loan with [n] payments, as the amortizer builds it. *)
Lemma balance_at_schedule (r P b : Qc) (n m : Z) :
  (1 <= m <= n)%Z ->
  balance_at (pd_DataFrame (schedule_loop (py_range 1 (n + 1)) r P b)) m
  = Ok (balance_after r P (Z.to_nat m) b).
Proof.
  intros Hm. unfold balance_at, column, select.
  rewrite pd_DataFrame_columns.
  destruct (schedule_loop (py_range 1 (n + 1)) r P b) eqn:E.
  - apply schedule_loop_nil in E. apply (f_equal (@length Z)) in E.
    rewrite py_range_length in E. simpl in E. lia.
  - rewrite <- E. cbn [bind has_columns rows].
    replace (Z.to_nat m) with (S (Z.to_nat (m - 1))) by lia.
    apply schedule_loop_select_first.
    + rewrite py_range_nth by lia. f_equal. lia.
    + replace m with (1 + Z.of_nat (Z.to_nat (m - 1)))%Z at 1 by lia.
      apply py_range_firstn_fresh.
Qed.

(** A month outside [1..n] has no row: [.values[0]] raises. *)
Lemma balance_at_missing (r P b : Qc) (n m : Z) :
  (1 <= n)%Z -> ~ (1 <= m <= n)%Z ->
  balance_at (pd_DataFrame (schedule_loop (py_range 1 (n + 1)) r P b)) m
  = Raise IndexError.
Proof.
  intros Hn Hm. unfold balance_at, column, select, pd_DataFrame.
  cbn [has_columns rows].
  destruct (schedule_loop (py_range 1 (n + 1)) r P b) eqn:E.
  - apply schedule_loop_nil in E. apply (f_equal (@length Z)) in E.
    rewrite py_range_length in E. simpl in E. lia.
  - rewrite <- E. cbn [bind has_columns rows].
    rewrite schedule_loop_select_none; [reflexivity |].
    rewrite py_range_In. lia.
Qed.

(** A schedule without payments is a frame without columns. *)
Lemma balance_at_empty (r P b : Qc) (n m : Z) :
  (n <= 0)%Z ->
  balance_at (pd_DataFrame (schedule_loop (py_range 1 (n + 1)) r P b)) m
  = Raise KeyError.
Proof.
  intros Hn. rewrite py_range_empty by lia. reflexivity.
Qed.

(** The lookup succeeds exactly on the months of the schedule. *)
Lemma balance_at_returns (r P b : Qc) (n m : Z) :
  returns (balance_at (pd_DataFrame (schedule_loop (py_range 1 (n + 1)) r P b)) m) ->
  (1 <= m <= n)%Z.
Proof.
  intros (v & Hv).
  destruct (Z_le_gt_dec n 0) as [Hn | Hn].
  - rewrite balance_at_empty in Hv by assumption. discriminate.
  - destruct (Z_le_gt_dec 1 m) as [H1 | H1];
      [destruct (Z_le_gt_dec m n) as [H2 | H2] |];
      try lia; rewrite balance_at_missing in Hv by lia; discriminate.
Qed.

(** ** The yearly loops *)

(** Each iteration of the stay loop appends one entry or raises. *)
Lemma stay_loop_length (rng : list Z) (schedule : DataFrame)
    (pmt annual_tax monthly_ins tax_rate : Qc) (cf out : list Qc) :
  stay_loop rng schedule pmt annual_tax monthly_ins tax_rate cf = Ok out ->
  exists yearly, out = cf ++ yearly /\ length yearly = length rng.
Proof.
  revert cf. induction rng as [| y rng IH]; intros cf H; cbn [stay_loop] in H.
  - injection H as <-. exists []. rewrite app_nil_r. split; reflexivity.
  - destruct (interest_between schedule _ _) as [i |]; cbn [bind] in H;
      [| discriminate].
    apply IH in H as (yearly & -> & Hlen).
    eexists (_ :: yearly). rewrite <- app_assoc. split; [reflexivity |].
    simpl. rewrite Hlen. reflexivity.
Qed.

(** On a frame with columns the interest of any year is a sum, possibly
    empty, and the loop runs to its end. *)
Lemma stay_loop_returns (rng : list Z) (schedule : DataFrame)
    (pmt annual_tax monthly_ins tax_rate : Qc) (cf : list Qc) :
  has_columns schedule = true ->
  returns (stay_loop rng schedule pmt annual_tax monthly_ins tax_rate cf).
Proof.
  intros Hc. revert cf. induction rng as [| y rng IH]; intros cf; cbn [stay_loop].
  - eexists. reflexivity.
  - unfold interest_between, column, select. cbn [has_columns rows].
    rewrite Hc. cbn [bind]. apply IH.
Qed.

(** The buy loop appends the same entry once per year. *)
Lemma buy_loop_repeat (rng : list Z) (pmt tax ins savings : Qc) (cf : list Qc) :
  buy_loop rng pmt tax ins savings cf
  = cf ++ repeat (- ((pmt + tax + ins) * '12) + savings) (length rng).
Proof.
  revert cf. induction rng as [| y rng IH]; intros cf; cbn [buy_loop length repeat].
  - rewrite app_nil_r. reflexivity.
  - rewrite IH, <- app_assoc. reflexivity.
Qed.

(** ** The simulators as a whole *)

Lemma schedule_has_columns (r P b : Qc) (n : Z) :
  (1 <= n)%Z ->
  has_columns (pd_DataFrame (schedule_loop (py_range 1 (n + 1)) r P b)) = true.
Proof.
  intros Hn. rewrite pd_DataFrame_columns.
  destruct (schedule_loop _ _ _ _) eqn:E; [| reflexivity].
  apply schedule_loop_nil in E. apply (f_equal (@length Z)) in E.
  rewrite py_range_length in E. simpl in E. lia.
Qed.

(** The schedule is the payment followed by the loop. *)
Lemma schedule_of_payment (loan_amount annual_rate : Qc) (term_years : Z) (P : Qc) :
  calculate_mortgage_payment loan_amount annual_rate term_years = Ok P ->
  calculate_mortgage_schedule loan_amount annual_rate term_years
  = Ok (pd_DataFrame (schedule_loop (py_range 1 (term_years * 12 + 1))
                        (annual_rate / '12) P loan_amount)).
Proof.
  intros H. unfold calculate_mortgage_schedule. rewrite H. reflexivity.
Qed.

Section Stay.

Variables (home_value mortgage_balance rate : Qc) (term_remaining : Z).
Variables (annual_tax monthly_ins appreciation_rate tax_rate : Qc) (years : Z).

Let stay := simulate_stay_full home_value mortgage_balance rate term_remaining
              annual_tax monthly_ins appreciation_rate tax_rate years.

(** What a normal return of [simulate_stay_full] looks like. *)
Lemma simulate_stay_full_shape (cfs : list Qc) :
  stay = Ok cfs ->
  (1 <= years <= term_remaining)%Z /\
  exists yearly terminal,
    cfs = [- '600000] ++ yearly ++ [terminal] /\ length yearly = Z.to_nat years.
Proof.
  unfold stay, simulate_stay_full. intros H.
  destruct (calculate_mortgage_payment _ _ _) as [P |] eqn:HP; [| discriminate].
  rewrite (schedule_of_payment _ _ _ _ HP) in H. cbn [bind] in H.
  destruct (stay_loop _ _ _ _ _ _ _) as [cf |] eqn:Hloop; [| discriminate].
  cbn [bind] in H.
  destruct (py_pow _ _) as [g |]; [| discriminate]. cbn [bind] in H.
  destruct (balance_at _ _) as [bal |] eqn:Hbal; [| discriminate]. cbn [bind] in H.
  injection H as <-.
  assert (Hm : (1 <= years * 12 <= term_remaining * 12)%Z).
  { eapply balance_at_returns. eexists. exact Hbal. }
  apply stay_loop_length in Hloop as (yearly & -> & Hlen).
  rewrite py_range_length in Hlen.
  split; [lia |]. exists yearly. eexists. rewrite <- app_assoc.
  split; [reflexivity | rewrite Hlen; f_equal; lia].
Qed.

(** Within the term of a loan whose payment is defined, it returns. *)
Lemma simulate_stay_full_returns :
  returns (calculate_mortgage_payment mortgage_balance rate term_remaining) ->
  (1 <= years <= term_remaining)%Z ->
  returns stay.
Proof.
  intros (P & HP) Hy. unfold stay, simulate_stay_full.
  rewrite HP, (schedule_of_payment _ _ _ _ HP). cbn [bind].
  destruct (stay_loop_returns (py_range 1 (years + 1))
              (pd_DataFrame (schedule_loop (py_range 1 (term_remaining * 12 + 1))
                               (rate / '12) P mortgage_balance))
              P annual_tax monthly_ins tax_rate [- '600000]) as (cf & ->).
  { apply schedule_has_columns. lia. }
  cbn [bind]. rewrite py_pow_nonneg by lia. cbn [bind].
  rewrite balance_at_schedule by lia. cbn [bind]. eexists. reflexivity.
Qed.

(** Held longer than the loan runs: the payment's own error if it has
    one, otherwise the lookup's [IndexError]. *)
Lemma simulate_stay_full_long_hold :
  (1 <= term_remaining < years)%Z ->
  stay = (_ <- calculate_mortgage_payment mortgage_balance rate term_remaining ;;
          Raise IndexError).
Proof.
  intros Hy. unfold stay, simulate_stay_full.
  destruct (calculate_mortgage_payment _ _ _) as [P |] eqn:HP; [| reflexivity].
  rewrite (schedule_of_payment _ _ _ _ HP). cbn [bind].
  destruct (stay_loop_returns (py_range 1 (years + 1))
              (pd_DataFrame (schedule_loop (py_range 1 (term_remaining * 12 + 1))
                               (rate / '12) P mortgage_balance))
              P annual_tax monthly_ins tax_rate [- '600000]) as (cf & ->).
  { apply schedule_has_columns. lia. }
  cbn [bind]. rewrite py_pow_nonneg by lia. cbn [bind].
  rewrite balance_at_missing by lia. reflexivity.
Qed.


End Stay.

Section Buy.

Variables (purchase_price equity existing_mortgage existing_rate : Qc).
Variables (existing_term : Z) (rate : Qc) (term_years : Z).
Variables (tax ins down_pct appreciation tax_rate : Qc) (years : Z).

Let buy := simulate_home_ownership purchase_price equity existing_mortgage
             existing_rate existing_term rate term_years tax ins down_pct
             appreciation tax_rate years.

Let loan_amount := purchase_price - purchase_price * down_pct.

(** What a normal return of [simulate_home_ownership] looks like. *)
Lemma simulate_home_ownership_shape (cfs : list Qc) :
  buy = Ok cfs ->
  (1 <= years <= term_years)%Z /\
  exists monthly_pmt terminal,
    calculate_mortgage_payment loan_amount rate term_years = Ok monthly_pmt /\
    cfs = [equity - purchase_price * down_pct - purchase_price * '(15 # 1000)
           - calculate_reet purchase_price]
          ++ repeat (- ((monthly_pmt + tax + ins) * '12)
                     + py_min '750000 loan_amount * rate * tax_rate)
               (Z.to_nat years)
          ++ [terminal].
Proof.
  unfold buy, simulate_home_ownership. fold loan_amount. intros H.
  destruct (calculate_mortgage_payment _ _ _) as [P |] eqn:HP; [| discriminate].
  rewrite (schedule_of_payment _ _ _ _ HP) in H. cbn [bind] in H.
  destruct (py_pow _ _) as [g |]; [| discriminate]. cbn [bind] in H.
  destruct (balance_at _ _) as [bal |] eqn:Hbal; [| discriminate]. cbn [bind] in H.
  injection H as <-.
  assert (Hm : (1 <= years * 12 <= term_years * 12)%Z).
  { eapply balance_at_returns. eexists. exact Hbal. }
  split; [lia |]. exists P. eexists. split; [reflexivity |].
  rewrite buy_loop_repeat, py_range_length, <- app_assoc.
  replace (Z.to_nat (years - 0)) with (Z.to_nat years) by lia. reflexivity.
Qed.

Lemma simulate_home_ownership_returns :
  returns (calculate_mortgage_payment loan_amount rate term_years) ->
  (1 <= years <= term_years)%Z ->
  returns buy.
Proof.
  intros (P & HP) Hy. unfold buy, simulate_home_ownership. fold loan_amount.
  rewrite HP, (schedule_of_payment _ _ _ _ HP). cbn [bind].
  rewrite py_pow_nonneg by lia. cbn [bind].
  rewrite balance_at_schedule by lia. cbn [bind]. eexists. reflexivity.
Qed.



End Buy.

(** * The model on concrete inputs *)

(** A closed comparison of two numbers of the model is decided by
    evaluation. *)
Ltac by_evaluation := apply Qc_is_canon; vm_compute; reflexivity.

(** The same for a call that returns a number. *)
Ltac returns_by_evaluation := vm_compute; f_equal; apply Qc_is_canon; reflexivity.

Example reet_of_nothing : calculate_reet 0 = 0.
Proof. by_evaluation. Qed.

(** At the first bound nothing spills into the second bracket. *)
Example reet_at_first_bound : calculate_reet '525000 = '525000 * '(11 # 1000).
Proof. by_evaluation. Qed.

(** A tax of exactly half a cent goes to the even cent. *)
Example reet_rounds_half_to_even :
  calculate_reet '(5 # 11) = 0 /\ calculate_reet '(15 # 11) = '(2 # 100).
Proof. split; by_evaluation. Qed.

Example reet_in_the_last_bracket :
  calculate_reet '3500000 = '5775 + '12800 + '41250 + '14250.
Proof. by_evaluation. Qed.

(** 1,200 over one year at a monthly rate of 100%. *)
Example payment_of_a_short_loan :
  calculate_mortgage_payment '1200 '(12 # 1) 1 = Ok ('1200 * '(4096 # 4095)).
Proof. returns_by_evaluation. Qed.

Example balance_at_of_a_short_loan :
  (schedule <- calculate_mortgage_schedule '1200 '(12 # 1) 1 ;;
   balance_at schedule 12) = Ok 0
  /\
  (schedule <- calculate_mortgage_schedule '1200 '(12 # 1) 1 ;;
   balance_at schedule 13) = Raise IndexError.
Proof. split; [returns_by_evaluation | vm_compute; reflexivity]. Qed.

(** The scenario of the application: ten years in the current home. *)
Example stay_scenario_of_the_application :
  exists cfs,
    simulate_stay_full '1000000 '400000 '(475 # 10000) 24 '8800 '800
      '(4 # 100) '(35 # 100) 10 = Ok cfs
    /\ nth_error cfs 0 = Some (- '600000)
    /\ length cfs = 12%nat.
Proof.
  destruct (payment_annuity '400000 '(475 # 10000) 24) as (P & HP & _);
    [vm_compute; reflexivity | lia |].
  destruct (simulate_stay_full_returns '1000000 '400000 '(475 # 10000) 24 '8800 '800
              '(4 # 100) '(35 # 100) 10 (ex_intro _ P HP) ltac:(lia)) as (cfs & H).
  exists cfs. split; [exact H |].
  apply simulate_stay_full_shape in H as (_ & yearly & terminal & -> & Hlen).
  split; [reflexivity |]. rewrite !length_app, Hlen. reflexivity.
Qed.

(** * The claims *)

(** C1, as stated: the transfer tax on 1,000,000 would be 11,825.  It is
    not: the two slices are 5,775 and 6,080. *)
Lemma transfer_tax_one_million_is_not_11825 :
  calculate_reet '1000000 <> '11825.
Proof.
  intros H. apply (f_equal this) in H. vm_compute in H. discriminate H.
Qed.

(** C1, amended: the transfer tax on a price of 1,000,000 is 11,855, the
    first bracket's full slice of 525,000 at 1.10% plus the 475,000 above it
    at 1.28%, rounded to two decimal places. *)
Theorem transfer_tax_one_million :
  calculate_reet '1000000
  = py_round2 ('525000 * '(11 # 1000) + '475000 * '(128 # 10000))
  /\ calculate_reet '1000000 = '11855.
Proof.
  split; by_evaluation.
Qed.













(** C7: in the buy simulator the annual tax savings are computed once, as
    min(750000, loan_amount) * rate * tax_rate, and every yearly entry, at
    indices 1..years of a returned sequence, equals
    annual_tax_savings - (monthly_payment + tax + insurance) * 12; so all
    yearly entries are equal to each other. *)
Theorem buy_yearly_entries_constant
    (purchase_price equity existing_mortgage existing_rate : Qc) (existing_term : Z)
    (rate : Qc) (term_years : Z) (tax ins down_pct appreciation tax_rate : Qc)
    (years : Z) (cfs : list Qc) :
  simulate_home_ownership purchase_price equity existing_mortgage existing_rate
    existing_term rate term_years tax ins down_pct appreciation tax_rate years
  = Ok cfs ->
  let loan_amount := purchase_price - purchase_price * down_pct in
  let annual_tax_savings := py_min '750000 loan_amount * rate * tax_rate in
  exists monthly_payment,
    calculate_mortgage_payment loan_amount rate term_years = Ok monthly_payment
    /\ (forall i : nat, (1 <= Z.of_nat i <= years)%Z ->
          nth_error cfs i
          = Some (annual_tax_savings - (monthly_payment + tax + ins) * '12))
    /\ (forall i j : nat,
          (1 <= Z.of_nat i <= years)%Z -> (1 <= Z.of_nat j <= years)%Z ->
          nth_error cfs i = nth_error cfs j).
Proof.
  intros H loan_amount annual_tax_savings.
  apply simulate_home_ownership_shape in H as (Hy & pmt & terminal & HP & ->).
  fold loan_amount in HP |- *. fold annual_tax_savings.
  assert (Hentry : forall i : nat, (1 <= Z.of_nat i <= years)%Z ->
            nth_error
              ([equity - purchase_price * down_pct - purchase_price * '(15 # 1000)
                - calculate_reet purchase_price]
               ++ repeat (- ((pmt + tax + ins) * '12) + annual_tax_savings)
                    (Z.to_nat years) ++ [terminal]) i
            = Some (annual_tax_savings - (pmt + tax + ins) * '12)).
  { intros i Hi. destruct i as [| i]; [lia |]. cbn [app nth_error].
    rewrite nth_error_app1 by (rewrite repeat_length; lia).
    rewrite nth_error_repeat by lia. f_equal. ring. }
  exists pmt. split; [exact HP |]. split; [exact Hentry |].
  intros i j Hi Hj. rewrite (Hentry i Hi), (Hentry j Hj). reflexivity.
Qed.

(** A one-year loan held for one year, evaluated. *)
Lemma buy_yearly_entries_constant_example :
  exists cfs,
    simulate_home_ownership '1000000 '400000 '300000 '(5 # 100) 20
      '(12 # 1) 1 '500 '100 '(2 # 10) '(4 # 100) '(35 # 100) 1 = Ok cfs
    /\ exists monthly_payment,
        calculate_mortgage_payment ('1000000 - '1000000 * '(2 # 10)) '(12 # 1) 1
        = Ok monthly_payment
        /\ (forall i : nat, (1 <= Z.of_nat i <= 1)%Z ->
              nth_error cfs i
              = Some (py_min '750000 ('1000000 - '1000000 * '(2 # 10)) * '(12 # 1)
                      * '(35 # 100) - (monthly_payment + '500 + '100) * '12))
        /\ (forall i j : nat, (1 <= Z.of_nat i <= 1)%Z -> (1 <= Z.of_nat j <= 1)%Z ->
              nth_error cfs i = nth_error cfs j).
Proof.
  assert (H : exists cfs,
             simulate_home_ownership '1000000 '400000 '300000 '(5 # 100) 20
               '(12 # 1) 1 '500 '100 '(2 # 10) '(4 # 100) '(35 # 100) 1 = Ok cfs)
    by (eexists; vm_compute; reflexivity).
  destruct H as (cfs & H). exists cfs. split; [exact H |].
  exact (buy_yearly_entries_constant _ _ _ _ _ _ _ _ _ _ _ _ _ cfs H).
Defined.

(** C8: the transfer tax is monotonically non-decreasing: for non-negative
    prices p1 < p2, the tax on p1 is at most the tax on p2, across bracket
    boundaries and after the rounding to two decimal places. *)
Theorem transfer_tax_monotone (p1 p2 : Qc) :
  0 <= p1 -> p1 < p2 -> calculate_reet p1 <= calculate_reet p2.
Proof.
  intros _ Hlt. unfold calculate_reet.
  apply py_round2_mono, reet_loop_mono, Qclt_le_weak, Hlt.
Qed.

(** Two prices on either side of the first bound. *)
Lemma transfer_tax_monotone_at_boundary :
  calculate_reet '525000 <= calculate_reet '(52500001 # 100).
Proof.
  apply transfer_tax_monotone; vm_compute; [discriminate | reflexivity].
Defined.




(** C10: the result of the buy simulator does not depend on the existing
    mortgage's balance, rate or term: two calls that differ only there
    return the same thing. *)
Theorem simulate_home_ownership_ignores_existing_mortgage
    (purchase_price equity : Qc)
    (existing_mortgage1 existing_rate1 : Qc) (existing_term1 : Z)
    (existing_mortgage2 existing_rate2 : Qc) (existing_term2 : Z)
    (rate : Qc) (term_years : Z) (tax ins down_pct appreciation tax_rate : Qc)
    (years : Z) :
  simulate_home_ownership purchase_price equity existing_mortgage1 existing_rate1
    existing_term1 rate term_years tax ins down_pct appreciation tax_rate years
  = simulate_home_ownership purchase_price equity existing_mortgage2 existing_rate2
      existing_term2 rate term_years tax ins down_pct appreciation tax_rate years.
Proof.
  reflexivity.
Qed.

(** * Further properties of the code *)

(** ** Transfer tax *)












(** ** Amortizer *)




(** X6: a schedule that is returned has one row per month, numbered
    1, 2, ..., term_years * 12 in this order; for a negative term it has no
    row and no column. *)
Theorem schedule_months (loan_amount annual_rate : Qc) (term_years : Z)
    (schedule : DataFrame) :
  calculate_mortgage_schedule loan_amount annual_rate term_years = Ok schedule ->
  map Month (rows schedule) = py_range 1 (term_years * 12 + 1)
  /\ length (rows schedule) = Z.to_nat (term_years * 12)
  /\ has_columns schedule = (0 <? term_years)%Z.
Proof.
  unfold calculate_mortgage_schedule. intros H.
  destruct (calculate_mortgage_payment _ _ _) as [P |]; [| discriminate].
  cbn [bind] in H. injection H as <-. cbn [rows pd_DataFrame].
  split; [apply schedule_loop_Month | split].
  - rewrite schedule_loop_length, py_range_length. f_equal. lia.
  - rewrite pd_DataFrame_columns.
    destruct (schedule_loop _ _ _ _) eqn:E.
    + apply schedule_loop_nil in E. apply (f_equal (@length Z)) in E.
      rewrite py_range_length in E. simpl in E. lia.
    + assert (Hn : schedule_loop (py_range 1 (term_years * 12 + 1))
                     (annual_rate / '12) P loan_amount <> []) by congruence.
      rewrite schedule_loop_nil in Hn.
      destruct (Z.ltb_spec 0 term_years) as [_ | Hle]; [reflexivity |].
      exfalso. apply Hn. apply py_range_empty. lia.
Qed.

(** A one-year loan, evaluated. *)
Lemma schedule_months_example :
  exists schedule,
    calculate_mortgage_schedule '1200 '(12 # 1) 1 = Ok schedule
    /\ map Month (rows schedule) = py_range 1 (1 * 12 + 1)
    /\ length (rows schedule) = Z.to_nat (1 * 12)
    /\ has_columns schedule = (0 <? 1)%Z.
Proof.
  assert (H : exists schedule,
             calculate_mortgage_schedule '1200 '(12 # 1) 1 = Ok schedule)
    by (eexists; vm_compute; reflexivity).
  destruct H as (schedule & H). exists schedule. split; [exact H |].
  exact (schedule_months _ _ _ schedule H).
Defined.






















(** ** Simulators: when they return and how they fail *)







(** ** The yearly entries of the stay simulator *)



















(** ** The sign of the yearly entries *)







(** ** The terminal entry and what the inputs touch *)










(** ** The run of the application *)

Lemma stay_returns_iff
    (home_value mortgage_balance rate : Qc) (term_remaining : Z)
    (annual_tax monthly_ins appreciation_rate tax_rate : Qc) (years : Z) :
  returns (simulate_stay_full home_value mortgage_balance rate term_remaining
             annual_tax monthly_ins appreciation_rate tax_rate years)
  <-> returns (calculate_mortgage_payment mortgage_balance rate term_remaining)
      /\ (1 <= years <= term_remaining)%Z.
Proof.
  split.
  - intros (cfs & H). split.
    + unfold simulate_stay_full in H.
      destruct (calculate_mortgage_payment _ _ _) as [P |]; [| discriminate].
      eexists. reflexivity.
    + apply simulate_stay_full_shape in H. apply H.
  - intros (HP & Hy). apply simulate_stay_full_returns; assumption.
Qed.

Lemma buy_returns_iff
    (purchase_price equity existing_mortgage existing_rate : Qc) (existing_term : Z)
    (rate : Qc) (term_years : Z) (tax ins down_pct appreciation tax_rate : Qc)
    (years : Z) :
  returns (simulate_home_ownership purchase_price equity existing_mortgage
             existing_rate existing_term rate term_years tax ins down_pct
             appreciation tax_rate years)
  <-> returns (calculate_mortgage_payment (purchase_price - purchase_price * down_pct)
                 rate term_years)
      /\ (1 <= years <= term_years)%Z.
Proof.
  split.
  - intros (cfs & H). split.
    + unfold simulate_home_ownership in H.
      destruct (calculate_mortgage_payment _ _ _) as [P |]; [| discriminate].
      eexists. reflexivity.
    + apply simulate_home_ownership_shape in H. apply H.
  - intros (HP & Hy). apply simulate_home_ownership_returns; assumption.
Qed.

Lemma stay_length
    (home_value mortgage_balance rate : Qc) (term_remaining : Z)
    (annual_tax monthly_ins appreciation_rate tax_rate : Qc) (years : Z)
    (cfs : list Qc) :
  simulate_stay_full home_value mortgage_balance rate term_remaining annual_tax
    monthly_ins appreciation_rate tax_rate years = Ok cfs ->
  Z.of_nat (length cfs) = (years + 2)%Z.
Proof.
  intros H. apply simulate_stay_full_shape in H as (Hy & yearly & t & -> & Hlen).
  rewrite !length_app. simpl. lia.
Qed.

Lemma buy_length
    (purchase_price equity existing_mortgage existing_rate : Qc) (existing_term : Z)
    (rate : Qc) (term_years : Z) (tax ins down_pct appreciation tax_rate : Qc)
    (years : Z) (cfs : list Qc) :
  simulate_home_ownership purchase_price equity existing_mortgage existing_rate
    existing_term rate term_years tax ins down_pct appreciation tax_rate years
  = Ok cfs ->
  Z.of_nat (length cfs) = (years + 2)%Z.
Proof.
  intros H. apply simulate_home_ownership_shape in H as (Hy & P & t & _ & ->).
  rewrite !length_app, repeat_length. simpl. lia.
Qed.

(** X24: when the run of the application gets through its three
    simulations, the four columns handed to the chart's frame, Year, Stay,
    2.9M and 3.5M, all have holding_years + 2 entries, and Year counts
    0, 1, ..., holding_years + 1: the frame is never built from columns of
    different lengths. *)
Theorem chart_columns_aligned (i : App.Inputs) (cfs : list Qc * list Qc * list Qc) :
  App.run_model i = Ok cfs ->
  let '(year, stay, opt_29, opt_35) := App.chart_columns cfs in
  year = py_range 0 (App.holding_years i + 2)
  /\ Z.of_nat (length year) = (App.holding_years i + 2)%Z
  /\ length stay = length year
  /\ length opt_29 = length year
  /\ length opt_35 = length year.
Proof.
  unfold App.run_model. intros H.
  destruct (simulate_stay_full _ _ _ _ _ _ _ _ _) as [cf_stay |] eqn:Hs;
    [| discriminate].
  cbn [bind] in H.
  destruct (simulate_home_ownership (App.price_29 i) _ _ _ _ _ _ _ _ _ _ _ _)
    as [cf_29 |] eqn:H29; [| discriminate].
  cbn [bind] in H.
  destruct (simulate_home_ownership (App.price_35 i) _ _ _ _ _ _ _ _ _ _ _ _)
    as [cf_35 |] eqn:H35; [| discriminate].
  cbn [bind] in H. injection H as <-.
  apply stay_length in Hs. apply buy_length in H29. apply buy_length in H35.
  cbn [App.chart_columns]. rewrite Hs, py_range_length.
  repeat split; lia.
Qed.

(** One-year loans held for one year, evaluated. *)
Lemma chart_columns_aligned_example :
  let i := App.mkInputs 1 '(4 # 100) '(5 # 100) '(35 # 100)
             '1000000 '1200 '(12 # 1) 1 '8800 '800
             '2900000 '3500000 '1993 '2392 '1078 '1167 '(12 # 1) 1 '(2 # 10) in
  exists cfs,
    App.run_model i = Ok cfs
    /\ let '(year, stay, opt_29, opt_35) := App.chart_columns cfs in
       year = py_range 0 (App.holding_years i + 2)
       /\ Z.of_nat (length year) = (App.holding_years i + 2)%Z
       /\ length stay = length year
       /\ length opt_29 = length year
       /\ length opt_35 = length year.
Proof.
  intros i.
  assert (H : exists cfs, App.run_model i = Ok cfs)
    by (eexists; vm_compute; reflexivity).
  destruct H as (cfs & H). exists cfs. split; [exact H |].
  exact (chart_columns_aligned i cfs H).
Defined.

(** X25: the run of the application gets through exactly when the three
    fixed payments are defined (the current loan and the new loan for each
    of the two prices) and the holding period is at least one year and at
    most the shorter of the two loan terms. *)
Theorem run_model_returns_iff (i : App.Inputs) :
  returns (App.run_model i)
  <-> returns (calculate_mortgage_payment (App.mortgage_balance i)
                 (App.current_rate i) (App.current_term i))
      /\ returns (calculate_mortgage_payment
                    (App.price_29 i - App.price_29 i * App.down_pct i)
                    (App.annual_rate i) (App.term_years i))
      /\ returns (calculate_mortgage_payment
                    (App.price_35 i - App.price_35 i * App.down_pct i)
                    (App.annual_rate i) (App.term_years i))
      /\ (1 <= App.holding_years i <= App.current_term i)%Z
      /\ (App.holding_years i <= App.term_years i)%Z.
Proof.
  unfold App.run_model. split.
  - intros (cfs & H).
    destruct (simulate_stay_full _ _ _ _ _ _ _ _ _) as [cf_stay |] eqn:Hs;
      [| discriminate].
    cbn [bind] in H.
    destruct (simulate_home_ownership (App.price_29 i) _ _ _ _ _ _ _ _ _ _ _ _)
      as [cf_29 |] eqn:H29; [| discriminate].
    cbn [bind] in H.
    destruct (simulate_home_ownership (App.price_35 i) _ _ _ _ _ _ _ _ _ _ _ _)
      as [cf_35 |] eqn:H35; [| discriminate].
    assert (Rs : returns (Ok cf_stay : result (list Qc))) by (eexists; reflexivity).
    assert (R29 : returns (Ok cf_29 : result (list Qc))) by (eexists; reflexivity).
    assert (R35 : returns (Ok cf_35 : result (list Qc))) by (eexists; reflexivity).
    rewrite <- Hs in Rs. rewrite <- H29 in R29. rewrite <- H35 in R35.
    apply stay_returns_iff in Rs as (Ps & Ys).
    apply buy_returns_iff in R29 as (P29 & Y29).
    apply buy_returns_iff in R35 as (P35 & _).
    repeat split; try assumption; lia.
  - intros (Ps & P29 & P35 & Ys & Yb).
    assert (Y : (1 <= App.holding_years i <= App.term_years i)%Z) by lia.
    destruct (proj2 (stay_returns_iff (App.home_value i) (App.mortgage_balance i)
                       (App.current_rate i) (App.current_term i) (App.current_tax i)
                       (App.current_ins i) (App.appreciation_rate i) (App.tax_rate i)
                       (App.holding_years i)) (conj Ps Ys)) as (cf_stay & ->).
    cbn [bind].
    destruct (proj2 (buy_returns_iff (App.price_29 i)
                       (App.home_value i - App.mortgage_balance i)
                       (App.mortgage_balance i) (App.current_rate i)
                       (App.current_term i) (App.annual_rate i) (App.term_years i)
                       (App.tax_29 i) (App.ins_29 i) (App.down_pct i)
                       (App.appreciation_rate i) (App.tax_rate i)
                       (App.holding_years i)) (conj P29 Y)) as (cf_29 & ->).
    cbn [bind].
    destruct (proj2 (buy_returns_iff (App.price_35 i)
                       (App.home_value i - App.mortgage_balance i)
                       (App.mortgage_balance i) (App.current_rate i)
                       (App.current_term i) (App.annual_rate i) (App.term_years i)
                       (App.tax_35 i) (App.ins_35 i) (App.down_pct i)
                       (App.appreciation_rate i) (App.tax_rate i)
                       (App.holding_years i)) (conj P35 Y)) as (cf_35 & ->).
    cbn [bind]. eexists. reflexivity.
Qed.

(** X26: with every number input at its default, the sliders decide: for
    slider positions within their bounds the run gets through when the
    holding period is at most 24 years, the years left on the current
    mortgage, and ends in IndexError, raised by the stay simulation, when
    the holding slider is set to 25 or more. *)
Theorem run_model_at_defaults (holding : Z) (appreciation discount marginal down : Qc) :
  App.in_slider_range (App.with_defaults holding appreciation discount marginal down) ->
  if (holding <=? 24)%Z
  then returns (App.run_model
                  (App.with_defaults holding appreciation discount marginal down))
  else App.run_model (App.with_defaults holding appreciation discount marginal down)
       = Raise IndexError.
Proof.
  intros (Hh & _). cbn [App.with_defaults App.holding_years] in Hh.
  destruct (Z.leb_spec holding 24) as [Hle | Hgt].
  - apply run_model_returns_iff.
    cbn [App.with_defaults App.mortgage_balance App.current_rate App.current_term
         App.price_29 App.price_35 App.down_pct App.annual_rate App.term_years
         App.holding_years].
    destruct (payment_annuity '400000 '(475 # 10000) 24) as (Ps & HPs & _);
      [vm_compute; reflexivity | lia |].
    destruct (payment_annuity ('2900000 - '2900000 * down) '(65 # 1000) 30)
      as (P29 & HP29 & _); [vm_compute; reflexivity | lia |].
    destruct (payment_annuity ('3500000 - '3500000 * down) '(65 # 1000) 30)
      as (P35 & HP35 & _); [vm_compute; reflexivity | lia |].
    repeat split; try lia;
      [exists Ps; exact HPs | exists P29; exact HP29 | exists P35; exact HP35].
  - unfold App.run_model. cbn [App.with_defaults App.home_value App.mortgage_balance
      App.current_rate App.current_term App.current_tax App.current_ins
      App.appreciation_rate App.tax_rate App.holding_years].
    rewrite simulate_stay_full_long_hold by lia.
    destruct (payment_annuity '400000 '(475 # 10000) 24) as (Ps & -> & _);
      [vm_compute; reflexivity | lia |].
    reflexivity.
Qed.

(** The sliders at their own defaults, and the holding slider at its
    maximum. *)
Lemma run_model_at_defaults_example :
  (if (10 <=? 24)%Z
   then returns (App.run_model
                   (App.with_defaults 10 '(4 # 100) '(5 # 100) '(35 # 100) '(2 # 10)))
   else App.run_model (App.with_defaults 10 '(4 # 100) '(5 # 100) '(35 # 100) '(2 # 10))
        = Raise IndexError)
  /\
  (if (30 <=? 24)%Z
   then returns (App.run_model
                   (App.with_defaults 30 '(4 # 100) '(5 # 100) '(35 # 100) '(2 # 10)))
   else App.run_model (App.with_defaults 30 '(4 # 100) '(5 # 100) '(35 # 100) '(2 # 10))
        = Raise IndexError).
Proof.
  split; apply run_model_at_defaults;
    (unfold App.in_slider_range; cbn [App.with_defaults App.holding_years
       App.appreciation_rate App.discount_rate App.tax_rate App.down_pct];
     repeat split; solve [lia | vm_compute; discriminate]).
Defined.

(** ** How the payment shifts from interest to principal *)


